(** * forte.data.data_store: the [DataStore] class

    A shallow embedding of [src/forte/data/data_store.py].  Python
    dictionaries are stdpp [gmap]s, Python lists are Rocq lists, methods
    are computations in a state-and-exception monad over the instance
    and the [uuid] generator. *)

From stdpp Require Import gmap strings list fin_maps.
From Stdlib Require Import ZArith.

Open Scope Z_scope.

(** ** Values and exceptions *)

(** The Python objects that occur in an entry list: [None], integers
    (offsets and tids) and strings (type names, attribute values). *)
Inductive value : Type :=
  | VNone
  | VInt (z : Z)
  | VStr (s : string).

(** The exceptions the class can raise: a failed dictionary subscript
    and the placeholder bodies. *)
Inductive exn : Type :=
  | KeyError (key : string)
  | NotImplementedError.

Inductive result (A : Type) : Type :=
  | Return (a : A)
  | Raise (e : exn).

Arguments Return {A} a.
Arguments Raise {A} e.

(** ** The instance state, as [__init__] lays it out *)

Record DataStore : Type := mkDataStore {
  _text : string;
  _type_attributes : gmap string (list string);
  elements : list (list (list value));
  entry_dict : gmap Z (list value);
}.

(** What a method call can observe and change: the instance [self] and
    the position in the sequence of integers that successive calls of
    [uuid.uuid4().int] deliver. *)
Record World : Type := mkWorld {
  self : DataStore;
  uuid4_int : nat -> Z;
  uuid4_calls : nat;
}.

(** ** The monad of method bodies *)

Module Py.

Definition M (A : Type) : Type := World -> result A * World.

Definition ret {A} (a : A) : M A := fun w => (Return a, w).

Definition raise {A} (e : exn) : M A := fun w => (Raise e, w).

Definition bind {A B} (c : M A) (k : A -> M B) : M B :=
  fun w =>
    match c w with
    | (Return a, w') => k a w'
    | (Raise e, w') => (Raise e, w')
    end.

(** [uuid.uuid4().int]: the next integer of the generator. *)
Definition uuid4 : M Z :=
  fun w =>
    (Return (uuid4_int w (uuid4_calls w)),
     {| self := self w;
        uuid4_int := uuid4_int w;
        uuid4_calls := S (uuid4_calls w) |}).

(** [self._type_attributes[type]]: subscript of a dict. *)
Definition type_attributes_getitem (type : string) : M (list string) :=
  fun w =>
    match _type_attributes (self w) !! type with
    | Some attrs => (Return attrs, w)
    | None => (Raise (KeyError type), w)
    end.

End Py.

Notation "'let*' x ':=' c 'in' k" := (Py.bind c (fun x => k))
  (at level 10, x name, c at level 100, k at level 200).

(** ** The methods of [DataStore] *)

(** [DataStore.__init__], after [super().__init__()]: the four
    attributes the constructor assigns. *)
Definition __init__ : DataStore :=
  {| _text := "";
     _type_attributes := ∅;
     elements := [];
     entry_dict := ∅ |}.

(** [self.__init__()] called on an instance that already exists: the
    four assignments are made again, so whatever the instance held is
    replaced by the state of a new store, and the call returns [None].
    [BaseStore.__init__], reached through [super()], is taken to return
    normally; the four attributes are assigned after it. *)
Definition __init___call : Py.M unit :=
  fun w =>
    (Return tt,
     {| self := __init__;
        uuid4_int := uuid4_int w;
        uuid4_calls := uuid4_calls w |}).

(** [_new_entry(self, type, begin, end)].  The tid is drawn first, the
    four leading fields are laid out, then the attribute list of [type]
    is looked up to append one [None] per attribute. *)
Definition _new_entry (type : string) (begin end_ : value)
  : Py.M (list value) :=
  let* tid := Py.uuid4 in
  let entry := [VStr type; VInt tid; begin; end_] in
  let* attrs := Py.type_attributes_getitem type in
  Py.ret (entry ++ replicate (length attrs) VNone).

Definition _generate_attr_index : Py.M unit :=
  Py.raise NotImplementedError.

Definition add_annotation_raw (type_id begin end_ : Z) : Py.M Z :=
  Py.raise NotImplementedError.

Definition set_attr (tid : Z) (attr_name : string) (attr_value : value)
  : Py.M unit :=
  Py.raise NotImplementedError.

Definition get_attr (tid : Z) (attr_name : string) : Py.M value :=
  Py.raise NotImplementedError.

Definition delete_entry (tid : Z) : Py.M unit :=
  Py.raise NotImplementedError.

Definition get_entry (tid : Z) : Py.M (list value) :=
  Py.raise NotImplementedError.

(** [get] has no [yield] in its body, so the exception is raised by the
    call itself and not on the first [next] of an iterator. *)
Definition get (entry_type : string) (kwargs : list (string * value))
  : Py.M (list (list value)) :=
  Py.raise NotImplementedError.

Definition next_entry (tid : Z) : Py.M (list value) :=
  Py.raise NotImplementedError.

Definition prev_entry (tid : Z) : Py.M (list value) :=
  Py.raise NotImplementedError.

(** ** Client programs: any sequence of method calls *)

(** One call of a method of the class, with its arguments. *)
Inductive call : Type :=
  | Call___init__
  | Call_new_entry (type : string) (begin end_ : value)
  | Call_generate_attr_index
  | Call_add_annotation_raw (type_id begin end_ : Z)
  | Call_set_attr (tid : Z) (attr_name : string) (attr_value : value)
  | Call_get_attr (tid : Z) (attr_name : string)
  | Call_delete_entry (tid : Z)
  | Call_get_entry (tid : Z)
  | Call_get (entry_type : string) (kwargs : list (string * value))
  | Call_next_entry (tid : Z)
  | Call_prev_entry (tid : Z).

(** What the caller sees of one call: an exception or a normal return
    (the returned object itself is dropped here). *)
Definition outcome {A} (r : result A * World) : option exn * World :=
  match r with
  | (Return _, w) => (None, w)
  | (Raise e, w) => (Some e, w)
  end.

Definition run_call (c : call) (w : World) : option exn * World :=
  match c with
  | Call___init__ => outcome (__init___call w)
  | Call_new_entry type begin end_ => outcome (_new_entry type begin end_ w)
  | Call_generate_attr_index => outcome (_generate_attr_index w)
  | Call_add_annotation_raw type_id begin end_ =>
      outcome (add_annotation_raw type_id begin end_ w)
  | Call_set_attr tid attr_name attr_value =>
      outcome (set_attr tid attr_name attr_value w)
  | Call_get_attr tid attr_name => outcome (get_attr tid attr_name w)
  | Call_delete_entry tid => outcome (delete_entry tid w)
  | Call_get_entry tid => outcome (get_entry tid w)
  | Call_get entry_type kwargs => outcome (get entry_type kwargs w)
  | Call_next_entry tid => outcome (next_entry tid w)
  | Call_prev_entry tid => outcome (prev_entry tid w)
  end.

(** A client that catches every exception and goes on: the world after
    the calls [cs], made in order. *)
Fixpoint run_calls (cs : list call) (w : World) : World :=
  match cs with
  | [] => w
  | c :: cs' => run_calls cs' (snd (run_call c w))
  end.

(** The entries a client obtains from successive [_new_entry] calls,
    in order; a call that raises contributes none, and the next call
    runs in the world the failed one left. *)
Fixpoint new_entries (reqs : list (string * value * value)) (w : World)
  : list (list value) :=
  match reqs with
  | [] => []
  | (type, begin, end_) :: reqs' =>
      match _new_entry type begin end_ w with
      | (Return entry, w') => entry :: new_entries reqs' w'
      | (Raise _, w') => new_entries reqs' w'
      end
  end.

(** [entry[1]], where [_new_entry] stores the tid. *)
Definition tid_of (entry : list value) : option value := entry !! 1%nat.

(** How many of the calls [cs] are calls of [_new_entry]. *)
Fixpoint count_new_entry (cs : list call) : nat :=
  match cs with
  | [] => 0
  | Call_new_entry _ _ _ :: cs' => S (count_new_entry cs')
  | _ :: cs' => count_new_entry cs'
  end.

(** Whether one of the calls [cs] is a call of [__init__]. *)
Fixpoint has_init (cs : list call) : bool :=
  match cs with
  | [] => false
  | Call___init__ :: _ => true
  | _ :: cs' => has_init cs'
  end.

(** ** Concrete stores used in the examples *)

(** A generator that delivers 1000, 1001, 1002, ... *)
Definition uuid_from_1000 (n : nat) : Z := 1000 + Z.of_nat n.

Definition fresh_world : World :=
  {| self := __init__; uuid4_int := uuid_from_1000; uuid4_calls := 0 |}.

(** The registry of the docstring of [__init__], cut down to one type. *)
Definition sentence_store : DataStore :=
  {| _text := "";
     _type_attributes := {[ "Sentence" := ["speaker"; "sentiment"] ]};
     elements := [];
     entry_dict := ∅ |}.

Definition sentence_world : World :=
  {| self := sentence_store; uuid4_int := uuid_from_1000; uuid4_calls := 0 |}.

(** A store that already holds one Sentence entry, in the layout
    [_new_entry] produces, registered under its tid 7. *)
Definition sentence7 : list value :=
  [VStr "Sentence"; VInt 7; VInt 0; VInt 10; VNone; VNone].

Definition store_with_7 : DataStore :=
  {| _text := "";
     _type_attributes := {[ "Sentence" := ["speaker"; "sentiment"] ]};
     elements := [[sentence7]];
     entry_dict := {[ 7 := sentence7 ]} |}.

Definition world_with_7 : World :=
  {| self := store_with_7; uuid4_int := uuid_from_1000; uuid4_calls := 0 |}.

(** ** Equations of [_new_entry] *)

Lemma new_entry_registered w type begin end_ attrs :
  _type_attributes (self w) !! type = Some attrs ->
  _new_entry type begin end_ w =
    (Return ([VStr type; VInt (uuid4_int w (uuid4_calls w)); begin; end_]
               ++ replicate (length attrs) VNone),
     {| self := self w;
        uuid4_int := uuid4_int w;
        uuid4_calls := S (uuid4_calls w) |}).
Proof.
  intros Hreg.
  unfold _new_entry, Py.bind, Py.uuid4, Py.type_attributes_getitem, Py.ret.
  cbn [self]. by rewrite Hreg.
Qed.

Lemma new_entry_unregistered w type begin end_ :
  _type_attributes (self w) !! type = None ->
  _new_entry type begin end_ w =
    (Raise (KeyError type),
     {| self := self w;
        uuid4_int := uuid4_int w;
        uuid4_calls := S (uuid4_calls w) |}).
Proof.
  intros Hreg.
  unfold _new_entry, Py.bind, Py.uuid4, Py.type_attributes_getitem, Py.ret.
  cbn [self]. by rewrite Hreg.
Qed.

(** [_new_entry] never touches the instance, whether it returns or
    raises. *)
Lemma new_entry_self w type begin end_ :
  self (snd (_new_entry type begin end_ w)) = self w.
Proof.
  destruct (_type_attributes (self w) !! type) as [attrs|] eqn:Hreg.
  - by rewrite (new_entry_registered _ _ _ _ _ Hreg).
  - by rewrite (new_entry_unregistered _ _ _ _ Hreg).
Qed.

(** ** The record factory on a registered type *)

(** C2: for a type registered in [_type_attributes], [_new_entry]
    returns a list of length 4 plus the number of attributes of the
    type, and every position from 4 on holds [None]. *)
Theorem new_entry_length_and_unset w type begin end_ attrs :
  _type_attributes (self w) !! type = Some attrs ->
  exists entry : list value,
    fst (_new_entry type begin end_ w) = Return entry /\
    length entry = (4 + length attrs)%nat /\
    forall i : nat, (4 <= i < length entry)%nat -> entry !! i = Some VNone.
Proof.
  intros Hreg. rewrite (new_entry_registered _ _ _ _ _ Hreg).
  eexists. split; [reflexivity|]. split.
  - rewrite length_app, length_replicate. reflexivity.
  - intros i [Hlo Hhi].
    rewrite length_app, length_replicate in Hhi. cbn [length] in Hhi.
    rewrite lookup_app_r by (cbn [length]; lia). cbn [length].
    apply lookup_replicate_2. lia.
Qed.

Lemma new_entry_length_and_unset_witness :
  exists entry : list value,
    fst (_new_entry "Sentence" (VInt 0) (VInt 10) sentence_world)
      = Return entry /\
    length entry = (4 + length ["speaker"; "sentiment"])%nat /\
    forall i : nat, (4 <= i < length entry)%nat -> entry !! i = Some VNone.
Proof.
  apply (new_entry_length_and_unset sentence_world "Sentence"
           (VInt 0) (VInt 10) ["speaker"; "sentiment"]).
  reflexivity.
Defined.

(** C3: for a registered type, [_new_entry] returns and leaves the
    instance as it was: nothing is added to [elements], nothing to
    [entry_dict], and [_type_attributes] is the same mapping. *)
Theorem new_entry_frame w type begin end_ attrs :
  _type_attributes (self w) !! type = Some attrs ->
  let r := _new_entry type begin end_ w in
  (exists entry, fst r = Return entry) /\
  self (snd r) = self w /\
  elements (self (snd r)) = elements (self w) /\
  entry_dict (self (snd r)) = entry_dict (self w) /\
  _type_attributes (self (snd r)) = _type_attributes (self w).
Proof.
  intros Hreg r. subst r. split.
  - rewrite (new_entry_registered _ _ _ _ _ Hreg). eauto.
  - rewrite new_entry_self. auto.
Qed.

Lemma new_entry_frame_witness :
  let r := _new_entry "Sentence" (VInt 0) (VInt 10) world_with_7 in
  (exists entry, fst r = Return entry) /\
  self (snd r) = store_with_7 /\
  elements (self (snd r)) = [[sentence7]] /\
  entry_dict (self (snd r)) = {[ 7 := sentence7 ]} /\
  _type_attributes (self (snd r))
    = {[ "Sentence" := ["speaker"; "sentiment"] ]}.
Proof.
  apply (new_entry_frame world_with_7 "Sentence" (VInt 0) (VInt 10)
           ["speaker"; "sentiment"]).
  reflexivity.
Defined.

(** C9: for a registered type and any two integers, [_new_entry]
    returns, and the list it returns holds the two integers as they
    were passed; no comparison of [begin] with [end] and no sign test
    stands in the way. *)
Theorem new_entry_keeps_any_span w type (b e : Z) attrs :
  _type_attributes (self w) !! type = Some attrs ->
  exists entry : list value,
    fst (_new_entry type (VInt b) (VInt e) w) = Return entry /\
    entry !! 2%nat = Some (VInt b) /\
    entry !! 3%nat = Some (VInt e).
Proof.
  intros Hreg. rewrite (new_entry_registered _ _ _ _ _ Hreg).
  eexists. split; [reflexivity|]. split; reflexivity.
Qed.

Lemma new_entry_keeps_any_span_witness :
  exists entry : list value,
    fst (_new_entry "Sentence" (VInt 10) (VInt (-3)) sentence_world)
      = Return entry /\
    entry !! 2%nat = Some (VInt 10) /\
    entry !! 3%nat = Some (VInt (-3)).
Proof.
  apply (new_entry_keeps_any_span sentence_world "Sentence" 10 (-3)
           ["speaker"; "sentiment"]).
  reflexivity.
Defined.

(** ** The registry of a newly constructed store *)

(** Every method but [__init__] leaves the instance as it was, and
    [__init__] leaves the state of a new store. *)
Lemma run_call_self c w :
  self (snd (run_call c w)) = if has_init [c] then __init__ else self w.
Proof.
  destruct c; cbn [run_call has_init]; try reflexivity.
  pose proof (new_entry_self w type begin end_) as Hself.
  destruct (_new_entry type begin end_ w) as [[entry|e] w']; exact Hself.
Qed.

(** No method puts a key into [_type_attributes]. *)
Lemma run_call_registry_empty c w :
  _type_attributes (self w) = ∅ ->
  _type_attributes (self (snd (run_call c w))) = ∅.
Proof.
  intros Hempty. rewrite run_call_self.
  destruct (has_init [c]); [reflexivity|exact Hempty].
Qed.

Lemma run_calls_registry_empty cs : forall w,
  _type_attributes (self w) = ∅ ->
  _type_attributes (self (run_calls cs w)) = ∅.
Proof.
  induction cs as [|c cs IH]; intros w Hempty; cbn [run_calls].
  - exact Hempty.
  - apply IH, run_call_registry_empty, Hempty.
Qed.

(** C10: [__init__] leaves [_type_attributes] empty; after any sequence
    of calls of the methods of the class on the new instance it is
    still empty, so [_new_entry] then raises [KeyError] for whatever
    type it is given and returns no entry. *)
Theorem fresh_store_new_entry_key_error
    (gen : nat -> Z) (n : nat) (cs : list call)
    (type : string) (begin end_ : value) :
  let w := run_calls cs
             {| self := __init__; uuid4_int := gen; uuid4_calls := n |} in
  _type_attributes __init__ = ∅ /\
  _type_attributes (self w) = ∅ /\
  fst (_new_entry type begin end_ w) = Raise (KeyError type).
Proof.
  intros w. subst w. split; [reflexivity|].
  assert (_type_attributes
            (self (run_calls cs
               {| self := __init__; uuid4_int := gen; uuid4_calls := n |}))
          = ∅) as Hempty.
  { apply run_calls_registry_empty. reflexivity. }
  split; [exact Hempty|].
  rewrite new_entry_unregistered; [reflexivity|].
  rewrite Hempty. apply lookup_empty.
Qed.

(** ** Where the code departs from its documentation *)

(** The order of the leading fields, for any registered type. *)
Lemma new_entry_layout w type begin end_ attrs :
  _type_attributes (self w) !! type = Some attrs ->
  exists entry : list value,
    fst (_new_entry type begin end_ w) = Return entry /\
    entry !! 0%nat = Some (VStr type) /\
    entry !! 1%nat = Some (VInt (uuid4_int w (uuid4_calls w))) /\
    entry !! 2%nat = Some begin /\
    entry !! 3%nat = Some end_.
Proof.
  intros Hreg. rewrite (new_entry_registered _ _ _ _ _ Hreg).
  eexists. repeat split.
Qed.

(** C1: [_new_entry("Sentence", 0, 10)] on a store where Sentence has
    two attributes returns [type, tid, begin, end, None, None]: index 0
    holds the type and index 2 the begin offset, not the order begin,
    end, type, tid of the class docstring. *)
Theorem new_entry_puts_type_first :
  fst (_new_entry "Sentence" (VInt 0) (VInt 10) sentence_world)
    = Return [VStr "Sentence"; VInt 1000; VInt 0; VInt 10; VNone; VNone]
  /\ fst (_new_entry "Sentence" (VInt 0) (VInt 10) sentence_world)
    <> Return [VInt 0; VInt 10; VStr "Sentence"; VInt 1000; VNone; VNone].
Proof. split; [reflexivity | discriminate]. Qed.

(** C6: for the live tid 7 and the attribute speaker of its type,
    [set_attr] raises [NotImplementedError] and writes nothing, and
    [get_attr] raises too instead of returning the value. *)
Theorem set_attr_then_get_attr_raises :
  entry_dict (self world_with_7) !! 7 = Some sentence7
  /\ set_attr 7 "speaker" (VStr "Alice") world_with_7
       = (Raise NotImplementedError, world_with_7)
  /\ get_attr 7 "speaker" world_with_7
       = (Raise NotImplementedError, world_with_7)
  /\ fst (get_attr 7 "speaker" world_with_7) <> Return (VStr "Alice").
Proof. repeat split; discriminate. Qed.

(** C8: on a store whose registry has no type at all,
    [add_annotation_raw] raises [NotImplementedError], and [get] raises
    it too instead of returning an empty sequence. *)
Theorem unknown_type_add_and_get_raise :
  _type_attributes (self fresh_world) !! "Sentence" = None
  /\ fst (add_annotation_raw 0 0 10 fresh_world) = Raise NotImplementedError
  /\ fst (get "Sentence" [] fresh_world) = Raise NotImplementedError
  /\ fst (get "Sentence" [] fresh_world) <> Return [].
Proof. repeat split; discriminate. Qed.

(** ** Further properties of the class as written *)

(** The world [_new_entry] leaves: one more uuid drawn, whether the
    type is registered or not. *)
Lemma new_entry_world w type begin end_ :
  snd (_new_entry type begin end_ w) =
    {| self := self w;
       uuid4_int := uuid4_int w;
       uuid4_calls := S (uuid4_calls w) |}.
Proof.
  destruct (_type_attributes (self w) !! type) as [attrs|] eqn:Hreg.
  - by rewrite (new_entry_registered _ _ _ _ _ Hreg).
  - by rewrite (new_entry_unregistered _ _ _ _ Hreg).
Qed.

Lemma run_call_gen c w : uuid4_int (snd (run_call c w)) = uuid4_int w.
Proof.
  destruct c; cbn [run_call]; try reflexivity.
  pose proof (new_entry_world w type begin end_) as Hw.
  destruct (_new_entry type begin end_ w) as [[entry|e] w'];
    cbn [outcome snd] in *; by subst w'.
Qed.

Lemma run_call_count c w :
  uuid4_calls (snd (run_call c w))
    = (uuid4_calls w + count_new_entry [c])%nat.
Proof.
  destruct c; cbn [run_call count_new_entry];
    try (cbn; lia).
  pose proof (new_entry_world w type begin end_) as Hw.
  destruct (_new_entry type begin end_ w) as [[entry|e] w'];
    cbn [outcome snd] in *; subst w'; cbn [uuid4_calls]; lia.
Qed.

(** X1: on any store, [_new_entry] with a type that is not a key of
    [_type_attributes] raises [KeyError] on that type; the instance is
    untouched, but the uuid drawn before the lookup is spent. *)
Theorem new_entry_unknown_type_key_error w type begin end_ :
  _type_attributes (self w) !! type = None ->
  let r := _new_entry type begin end_ w in
  fst r = Raise (KeyError type) /\
  self (snd r) = self w /\
  uuid4_calls (snd r) = S (uuid4_calls w).
Proof.
  intros Hreg r. subst r.
  rewrite (new_entry_unregistered _ _ _ _ Hreg). repeat split.
Qed.

Lemma new_entry_unknown_type_key_error_witness :
  let r := _new_entry "Token" (VInt 0) (VInt 5) world_with_7 in
  fst r = Raise (KeyError "Token") /\
  self (snd r) = store_with_7 /\
  uuid4_calls (snd r) = 1%nat.
Proof.
  apply (new_entry_unknown_type_key_error world_with_7 "Token"
           (VInt 0) (VInt 5)).
  reflexivity.
Defined.

(** X2: of all the methods of the class, [__init__] included, on any
    store, the calls that return normally are [__init__] and
    [_new_entry] with a type that is a key of [_type_attributes]; every
    other call raises. *)
Theorem only_init_and_new_entry_return c w :
  fst (run_call c w) = None <->
  c = Call___init__ \/
  exists type begin end_,
    c = Call_new_entry type begin end_ /\
    is_Some (_type_attributes (self w) !! type).
Proof.
  split.
  - destruct c; cbn [run_call]; try discriminate; [by left|].
    intros Hret. right. exists type, begin, end_. split; [reflexivity|].
    destruct (_type_attributes (self w) !! type) as [attrs|] eqn:Hreg;
      [eauto|].
    rewrite (new_entry_unregistered _ _ _ _ Hreg) in Hret. discriminate.
  - intros [-> | (type & begin & end_ & -> & [attrs Hreg])];
      cbn [run_call]; [reflexivity|].
    by rewrite (new_entry_registered _ _ _ _ _ Hreg).
Qed.

(** X3: whatever methods a client calls, [__init__] included, in
    whatever order and with every exception caught: if [__init__] was
    not among them the instance afterwards is the instance before, and
    if it was the instance is in the state of a new store; the uuid
    generator is the same, and exactly as many uuids were drawn as there
    were [_new_entry] calls, failed ones included. *)
Theorem calls_leave_instance_or_reset cs : forall w,
  self (run_calls cs w) = (if has_init cs then __init__ else self w) /\
  uuid4_int (run_calls cs w) = uuid4_int w /\
  uuid4_calls (run_calls cs w)
    = (uuid4_calls w + count_new_entry cs)%nat.
Proof.
  induction cs as [|c cs IH]; intros w; cbn [run_calls].
  - cbn [count_new_entry has_init]. repeat split. lia.
  - destruct (IH (snd (run_call c w))) as (Hself & Hgen & Hcount).
    rewrite Hself, Hgen, Hcount, run_call_self, run_call_gen, run_call_count.
    repeat split.
    + destruct c; cbn [has_init]; try reflexivity.
      by destruct (has_init cs).
    + destruct c; cbn [count_new_entry]; lia.
Qed.

(** Every entry a client obtains carries, at index 1, a value the
    generator delivered at or after the position the client started
    from. *)
Lemma new_entries_tids reqs : forall w,
  Forall (fun entry =>
            exists k : nat, (uuid4_calls w <= k)%nat /\
              tid_of entry = Some (VInt (uuid4_int w k)))
         (new_entries reqs w).
Proof.
  induction reqs as [|[[type begin] end_] reqs IH]; intros w;
    cbn [new_entries]; [constructor|].
  pose proof (new_entry_world w type begin end_) as Hw.
  pose proof (IH (snd (_new_entry type begin end_ w))) as Hrest.
  rewrite Hw in Hrest. cbn [uuid4_calls uuid4_int] in Hrest.
  assert (Forall (fun entry =>
            exists k : nat, (uuid4_calls w <= k)%nat /\
              tid_of entry = Some (VInt (uuid4_int w k)))
            (new_entries reqs
               {| self := self w; uuid4_int := uuid4_int w;
                  uuid4_calls := S (uuid4_calls w) |})) as Hrest'.
  { eapply Forall_impl; [exact Hrest|].
    intros entry (k & Hk & Htid). exists k. split; [lia|exact Htid]. }
  destruct (_type_attributes (self w) !! type) as [attrs|] eqn:Hreg.
  - rewrite (new_entry_registered _ _ _ _ _ Hreg).
    constructor; [|exact Hrest'].
    exists (uuid4_calls w). split; [lia|reflexivity].
  - rewrite (new_entry_unregistered _ _ _ _ Hreg). exact Hrest'.
Qed.

(** X4: when the uuid generator never delivers the same integer twice,
    the entries obtained from any sequence of [_new_entry] calls, of
    any types and spans and with failed calls in between, carry
    pairwise distinct tids. *)
Theorem new_entries_tids_distinct reqs : forall w,
  (forall i j : nat, uuid4_int w i = uuid4_int w j -> i = j) ->
  NoDup (tid_of <$> new_entries reqs w).
Proof.
  induction reqs as [|[[type begin] end_] reqs IH]; intros w Hinj;
    cbn [new_entries]; [constructor|].
  pose proof (new_entry_world w type begin end_) as Hw.
  pose proof (IH (snd (_new_entry type begin end_ w))) as Hrest.
  pose proof (new_entries_tids reqs (snd (_new_entry type begin end_ w)))
    as Hlater.
  rewrite Hw in Hrest, Hlater. cbn [uuid4_calls uuid4_int] in Hrest, Hlater.
  specialize (Hrest Hinj).
  destruct (_type_attributes (self w) !! type) as [attrs|] eqn:Hreg.
  - rewrite (new_entry_registered _ _ _ _ _ Hreg).
    rewrite fmap_cons. apply NoDup_cons. split; [|exact Hrest].
    intros Hin. apply list_elem_of_fmap in Hin as (entry & Htid & Hentry).
    rewrite Forall_forall in Hlater.
    destruct (Hlater entry Hentry) as (k & Hk & Htid').
    rewrite Htid' in Htid. unfold tid_of in Htid. cbn in Htid.
    injection Htid as Heq. apply Hinj in Heq. lia.
  - rewrite (new_entry_unregistered _ _ _ _ Hreg). exact Hrest.
Qed.

Lemma new_entries_tids_distinct_witness :
  NoDup (tid_of <$> new_entries
           [("Sentence", VInt 0, VInt 10); ("Token", VInt 0, VInt 5);
            ("Sentence", VInt 0, VInt 10)] sentence_world).
Proof.
  apply (new_entries_tids_distinct
           [("Sentence", VInt 0, VInt 10); ("Token", VInt 0, VInt 5);
            ("Sentence", VInt 0, VInt 10)] sentence_world).
  intros i j. simpl. unfold uuid_from_1000. lia.
Defined.

(** X5: [_new_entry] checks no tid against earlier ones: the entries of
    two successive calls on registered types carry the same tid exactly
    when the generator delivers the same integer twice in a row. *)
Theorem successive_tids_equal_iff w type1 b1 e1 attrs1 type2 b2 e2 attrs2 :
  _type_attributes (self w) !! type1 = Some attrs1 ->
  _type_attributes (self w) !! type2 = Some attrs2 ->
  exists entry1 entry2 w1,
    _new_entry type1 b1 e1 w = (Return entry1, w1) /\
    fst (_new_entry type2 b2 e2 w1) = Return entry2 /\
    (tid_of entry1 = tid_of entry2 <->
     uuid4_int w (uuid4_calls w) = uuid4_int w (S (uuid4_calls w))).
Proof.
  intros Hreg1 Hreg2.
  rewrite (new_entry_registered _ _ _ _ _ Hreg1).
  eexists _, _, _. split; [reflexivity|].
  rewrite (new_entry_registered _ type2 b2 e2 attrs2) by exact Hreg2.
  split; [reflexivity|].
  unfold tid_of. cbn. split; [intros Heq; congruence | intros ->; reflexivity].
Qed.

Lemma successive_tids_equal_iff_witness :
  exists entry1 entry2 w1,
    _new_entry "Sentence" (VInt 0) (VInt 10) sentence_world
      = (Return entry1, w1) /\
    fst (_new_entry "Sentence" (VInt 0) (VInt 10) w1) = Return entry2 /\
    (tid_of entry1 = tid_of entry2 <->
     uuid4_int sentence_world (uuid4_calls sentence_world)
       = uuid4_int sentence_world (S (uuid4_calls sentence_world))).
Proof.
  apply (successive_tids_equal_iff sentence_world
           "Sentence" (VInt 0) (VInt 10) ["speaker"; "sentiment"]
           "Sentence" (VInt 0) (VInt 10) ["speaker"; "sentiment"]);
    reflexivity.
Defined.

(** X6: what [_new_entry] returns or raises depends on the store only
    through the attribute list of the type asked for: two stores that
    agree on it give the same outcome for the same next uuid, whatever
    their [_text], [elements], [entry_dict] and other registered
    types. *)
Theorem new_entry_reads_only_type_attributes w1 w2 type begin end_ :
  _type_attributes (self w1) !! type = _type_attributes (self w2) !! type ->
  uuid4_int w1 (uuid4_calls w1) = uuid4_int w2 (uuid4_calls w2) ->
  fst (_new_entry type begin end_ w1) = fst (_new_entry type begin end_ w2).
Proof.
  intros Hsame Hgen.
  destruct (_type_attributes (self w2) !! type) as [attrs|] eqn:Hreg.
  - rewrite (new_entry_registered w1 _ _ _ attrs) by exact Hsame.
    rewrite (new_entry_registered w2 _ _ _ attrs) by exact Hreg.
    cbn [fst]. by rewrite Hgen.
  - rewrite (new_entry_unregistered w1) by exact Hsame.
    rewrite (new_entry_unregistered w2) by exact Hreg.
    reflexivity.
Qed.

Lemma new_entry_reads_only_type_attributes_witness :
  fst (_new_entry "Sentence" (VInt 3) (VInt 8) sentence_world)
    = fst (_new_entry "Sentence" (VInt 3) (VInt 8) world_with_7).
Proof.
  apply (new_entry_reads_only_type_attributes sentence_world world_with_7
           "Sentence" (VInt 3) (VInt 8)); reflexivity.
Defined.
